(** * GVRf [BaseTexture]: a texture made from a bitmap or from raw pixels

    Shallow embedding of
    [GVRf/Framework/jni/objects/textures/base_texture.h].

    The class has two constructors and one accessor.  Both constructors are
    straight-line sequences of calls into the Android imaging API and into
    OpenGL ES; the embedding threads an explicit [World] (the GL context and
    the list of calls issued so far) through a small state-and-exception
    monad, so that a [throw] leaves the state it was raised in. *)

From Stdlib Require Import ZArith String List Lia Bool.
From stdpp Require Import gmap strings list.

Local Open Scope Z_scope.

(** ** Scalar types of the C++ code *)

Abbreviation GLenum := Z (only parsing).
Abbreviation GLuint := Z (only parsing).
Abbreviation GLint := Z (only parsing).
Abbreviation GLsizei := Z (only parsing).
Abbreviation jobject := Z (only parsing).

(** The three OpenGL ES constants the file uses, with their values in
    [GLES2/gl2.h]. *)
Definition GL_TEXTURE_2D : GLenum := 0x0DE1.
Definition GL_RGBA : GLenum := 0x1908.
Definition GL_UNSIGNED_BYTE : GLenum := 0x1401.

(** [AndroidBitmapInfo] stores [uint32_t] dimensions, [glTexImage2D] takes
    them as [GLsizei], a signed 32-bit integer: the implicit conversion wraps
    modulo 2^32 into the signed range. *)
Definition to_GLsizei (u : Z) : GLsizei :=
  (u + 2 ^ 31) mod 2 ^ 32 - 2 ^ 31.

(** ** Character pointers and [std::string]

    In [std::string error = "..." + ret;] the left operand is a string
    literal, that is a character pointer, and the right operand an [int]: the
    [+] is pointer arithmetic, and the [std::string] is then built from the
    resulting pointer.  A pointer into a literal is kept as the literal and an
    offset from its first character. *)

Record char_ptr := CharPtr { lit_chars : string; lit_offset : Z }.

Definition literal (s : string) : char_ptr :=
  {| lit_chars := s; lit_offset := 0 |}.

Definition ptr_add (p : char_ptr) (n : Z) : char_ptr :=
  {| lit_chars := lit_chars p; lit_offset := lit_offset p + n |}.

Fixpoint string_drop (n : nat) (s : string) : string :=
  match n, s with
  | O, _ => s
  | S n', String _ s' => string_drop n' s'
  | S _, EmptyString => EmptyString
  end.

(** The contents of a [std::string].  [Indeterminate] stands for a string
    read through a pointer that lies outside the array it was derived from:
    the source does not determine its characters.  Such a read is undefined
    behaviour.  A few bytes in front of a literal, where the result codes of
    the imaging API lead, it stays inside the program's read-only data and
    returns stray bytes; far from the literal it may leave mapped memory and
    stop the program.  The model follows the run in which the read returns:
    what it says of a throw is claimed only for the result codes the API
    documents. *)
Inductive std_string :=
| Chars (s : string)
| Indeterminate.

(** The [std::string] constructor from a character pointer: the characters
    from the pointer up to the terminating zero of the literal.  The offset
    [length] designates the terminator itself and gives the empty string. *)
Definition std_string_of (p : char_ptr) : std_string :=
  if (0 <=? lit_offset p) && (lit_offset p <=? Z.of_nat (String.length (lit_chars p)))
  then Chars (string_drop (Z.to_nat (lit_offset p)) (lit_chars p))
  else Indeterminate.

(** ** Pixel storage *)

(** A pointer to pixel data: null, or the bytes that can be read through it. *)
Inductive pixel_ptr :=
| NullPixels
| PixelsAt (buf : list Byte.byte).

(** What an upload of [n] bytes reads through the pointer.  [None] when the
    pointer is null (the storage is allocated and left uninitialised) or when
    fewer than [n] bytes lie behind it (the read runs past the buffer). *)
Definition read_pixels (p : pixel_ptr) (n : Z) : option (list Byte.byte) :=
  match p with
  | NullPixels => None
  | PixelsAt buf =>
      if n <=? Z.of_nat (length buf) then Some (take (Z.to_nat n) buf) else None
  end.

(** ** The Android imaging API

    [AndroidBitmapInfo] as declared in [android/bitmap.h]. *)
Record AndroidBitmapInfo := {
  info_width : Z;   (* uint32_t *)
  info_height : Z;  (* uint32_t *)
  info_stride : Z;  (* uint32_t *)
  info_format : Z;  (* int32_t *)
  info_flags : Z    (* uint32_t *)
}.

(** The failure codes of the imaging API, as [android/bitmap.h] lists them
    beside [ANDROID_BITMAP_RESULT_SUCCESS = 0]. *)
Definition ANDROID_BITMAP_RESULT_BAD_PARAMETER : Z := -1.
Definition ANDROID_BITMAP_RESULT_JNI_EXCEPTION : Z := -2.
Definition ANDROID_BITMAP_RESULT_ALLOCATION_FAILED : Z := -3.

Definition documented_failure (ret : Z) : Prop :=
  ret = ANDROID_BITMAP_RESULT_BAD_PARAMETER \/
  ret = ANDROID_BITMAP_RESULT_JNI_EXCEPTION \/
  ret = ANDROID_BITMAP_RESULT_ALLOCATION_FAILED.

(** The JNI environment stands for the Java VM the bitmap lives in.  The
    model keeps of it what the imaging API answers for each bitmap handle:
    the return code and the value written through the out-parameter. *)
Record JNIEnv := {
  getInfo_answer : jobject -> Z * AndroidBitmapInfo;
  lockPixels_answer : jobject -> Z * pixel_ptr
}.

(** ** The GL context and the calls issued *)

(** The image specified for a texture object by [glTexImage2D]. *)
Record TexImage := {
  img_level : GLint;
  img_internalformat : GLint;
  img_width : GLsizei;
  img_height : GLsizei;
  img_border : GLint;
  img_format : GLenum;
  img_type : GLenum;
  img_data : option (list Byte.byte)
}.

Record TexObject := {
  obj_target : GLenum;
  obj_image : option TexImage
}.

(** The calls the file makes, with their arguments. *)
Inductive Call :=
| call_new_GLTexture (target : GLenum)
| call_AndroidBitmap_getInfo (bitmap : jobject)
| call_AndroidBitmap_lockPixels (bitmap : jobject)
| call_AndroidBitmap_unlockPixels (bitmap : jobject)
| call_LOGE (msg : std_string)
| call_glBindTexture (target : GLenum) (texture : GLuint)
| call_glTexImage2D (target : GLenum) (level internalformat : GLint)
    (width height : GLsizei) (border : GLint) (format type : GLenum)
    (pixels : pixel_ptr).

Record World := {
  textures : gmap Z TexObject;   (* texture objects of the context, by name *)
  texture_binding_2d : GLuint;   (* the texture bound to GL_TEXTURE_2D *)
  calls : list Call              (* calls issued so far, oldest first *)
}.

(** ** State and exceptions *)

Inductive outcome (A : Type) :=
| Returned (a : A)
| Thrown (e : std_string).
Arguments Returned {A} a.
Arguments Thrown {A} e.

Definition Cpp (A : Type) : Type := World -> outcome A * World.

Definition cpp_ret {A} (a : A) : Cpp A := fun w => (Returned a, w).

Definition cpp_bind {A B} (m : Cpp A) (k : A -> Cpp B) : Cpp B :=
  fun w =>
    match m w with
    | (Returned a, w') => k a w'
    | (Thrown e, w') => (Thrown e, w')
    end.

(** [throw e]: the world paired with [Thrown] is the one the exception was
    raised in.  What the destructor of the base class does while the
    exception unwinds the constructor is code of [texture.h] and is not
    part of the outcome. *)
Definition throw {A} (e : std_string) : Cpp A := fun w => (Thrown e, w).

Notation "x <- m ;; k" := (cpp_bind m (fun x => k))
  (at level 90, m at level 89, right associativity).
Notation "m ;;; k" := (cpp_bind m (fun _ => k))
  (at level 90, right associativity).

Definition record_call (c : Call) (w : World) : World :=
  {| textures := textures w;
     texture_binding_2d := texture_binding_2d w;
     calls := calls w ++ [c] |}.

(** ** External operations *)

(** Modelled from the spec: class [GLTexture] and the base class [Texture]
    ([objects/textures/texture.h]) are not among the sources.  The spec
    describes the collaborator as a generic GL texture object handle that
    "supplies the GPU handle allocation/creation": an "opaque integer
    identifier assigned by the graphics driver" together with a binding
    target. *)
Record GLTexture := {
  id : GLuint;
  target : GLenum
}.

(** Modelled from the spec: the "opaque integer identifier assigned by the
    graphics driver" is a name that is unused and not zero (zero names the
    default texture). *)
Definition fresh_name (w : World) : GLuint :=
  fresh (({[ 0 ]} : gset Z) ∪ dom (textures w)).

(** Modelled from the spec: [new GLTexture(target)] allocates a texture
    object for the target under a fresh name; nothing else of the context
    changes. *)
Definition new_GLTexture (tgt : GLenum) : Cpp GLTexture :=
  fun w =>
    let name := fresh_name w in
    (Returned {| id := name; target := tgt |},
     {| textures := <[ name := {| obj_target := tgt; obj_image := None |} ]> (textures w);
        texture_binding_2d := texture_binding_2d w;
        calls := calls w ++ [call_new_GLTexture tgt] |}).

Definition AndroidBitmap_getInfo (env : JNIEnv) (bitmap : jobject)
  : Cpp (Z * AndroidBitmapInfo) :=
  fun w => (Returned (getInfo_answer env bitmap),
            record_call (call_AndroidBitmap_getInfo bitmap) w).

Definition AndroidBitmap_lockPixels (env : JNIEnv) (bitmap : jobject)
  : Cpp (Z * pixel_ptr) :=
  fun w => (Returned (lockPixels_answer env bitmap),
            record_call (call_AndroidBitmap_lockPixels bitmap) w).

Definition AndroidBitmap_unlockPixels (env : JNIEnv) (bitmap : jobject)
  : Cpp unit :=
  fun w => (Returned tt, record_call (call_AndroidBitmap_unlockPixels bitmap) w).

(** [LOGE("%s", error.c_str())]: the logging macro of [util/gvr_log.h]. *)
Definition LOGE (msg : std_string) : Cpp unit :=
  fun w => (Returned tt, record_call (call_LOGE msg) w).

(** [glBindTexture]: only the [GL_TEXTURE_2D] binding point is tracked. *)
Definition glBindTexture (tgt : GLenum) (texture : GLuint) : Cpp unit :=
  fun w =>
    (Returned tt,
     {| textures := textures w;
        texture_binding_2d :=
          if decide (tgt = GL_TEXTURE_2D) then texture else texture_binding_2d w;
        calls := calls w ++ [call_glBindTexture tgt texture] |}).

(** Components per pixel and bytes per component, for the one format and
    type the file uploads with. *)
Definition components (format : GLenum) : Z :=
  if decide (format = GL_RGBA) then 4 else 0.
Definition component_size (type : GLenum) : Z :=
  if decide (type = GL_UNSIGNED_BYTE) then 1 else 0.

Definition set_image (img : TexImage) (o : TexObject) : TexObject :=
  {| obj_target := obj_target o; obj_image := Some img |}.

(** [glTexImage2D]: specifies the image of the texture object currently
    bound to the target, reading [width * height * bytes-per-pixel] bytes
    through [pixels].  GL ES answers a negative width or height with
    [GL_INVALID_VALUE]: the call then stores nothing, and all it leaves is the
    context's error flag, which this file never reads and the world does not
    keep.  The other arguments the file passes are constants GL ES accepts.
    When fewer bytes than the upload reads lie behind [pixels] the driver's
    read runs past the buffer; the model returns from the call and leaves the
    contents of the image undetermined. *)
Definition glTexImage2D (tgt : GLenum) (level internalformat : GLint)
    (width height : GLsizei) (border : GLint) (format type : GLenum)
    (pixels : pixel_ptr) : Cpp unit :=
  fun w =>
    let img :=
      {| img_level := level; img_internalformat := internalformat;
         img_width := width; img_height := height; img_border := border;
         img_format := format; img_type := type;
         img_data :=
           read_pixels pixels
             (width * height * (components format * component_size type)) |} in
    (Returned tt,
     {| textures :=
          if decide (tgt = GL_TEXTURE_2D)
          then if (width <? 0) || (height <? 0)
               then textures w
               else alter (set_image img) (texture_binding_2d w) (textures w)
          else textures w;
        texture_binding_2d := texture_binding_2d w;
        calls := calls w ++ [call_glTexImage2D tgt level internalformat width
                               height border format type pixels] |}).

(** ** class BaseTexture *)

(** The object: the [gl_texture_] member inherited from [Texture]. *)
Record BaseTexture := {
  gl_texture_ : GLTexture
}.

(** [static const GLenum TARGET = GL_TEXTURE_2D;] *)
Definition TARGET : GLenum := GL_TEXTURE_2D.

(** [explicit BaseTexture(JNIEnv *env, jobject bitmap)] *)
Definition BaseTexture_of_bitmap (env : JNIEnv) (bitmap : jobject)
  : Cpp BaseTexture :=
  gl_texture <- new_GLTexture TARGET ;;
  r <- AndroidBitmap_getInfo env bitmap ;;
  let '(ret, info) := r in
  if ret <? 0 then
    let error :=
      std_string_of
        (ptr_add (literal "AndroidBitmap_getInfo () failed! error = ") ret) in
    LOGE error ;;;
    throw error
  else
    r <- AndroidBitmap_lockPixels env bitmap ;;
    let '(ret, pixels) := r in
    if ret <? 0 then
      let error :=
        std_string_of
          (ptr_add (literal "AndroidBitmap_lockPixels () failed! error = ") ret) in
      LOGE error ;;;
      throw error
    else
      AndroidBitmap_unlockPixels env bitmap ;;;
      glBindTexture GL_TEXTURE_2D (id gl_texture) ;;;
      glTexImage2D GL_TEXTURE_2D 0 GL_RGBA
        (to_GLsizei (info_width info)) (to_GLsizei (info_height info)) 0
        GL_RGBA GL_UNSIGNED_BYTE pixels ;;;
      cpp_ret {| gl_texture_ := gl_texture |}.

(** [explicit BaseTexture(int width, int height, const unsigned char *pixels)] *)
Definition BaseTexture_of_pixels (width height : Z) (pixels : pixel_ptr)
  : Cpp BaseTexture :=
  gl_texture <- new_GLTexture TARGET ;;
  glBindTexture GL_TEXTURE_2D (id gl_texture) ;;;
  glTexImage2D GL_TEXTURE_2D 0 GL_RGBA width height 0
    GL_RGBA GL_UNSIGNED_BYTE pixels ;;;
  cpp_ret {| gl_texture_ := gl_texture |}.

(** [GLenum getTarget() const] *)
Definition getTarget (this : BaseTexture) : Cpp GLenum :=
  cpp_ret TARGET.

(** ** The class declaration

    The members [BaseTexture] declares, in source order, with the access
    section each stands in and whether the declaration carries a body (or an
    initialiser). *)

Inductive access := Public | Private.

Inductive member :=
| ctor_from_bitmap
| ctor_from_pixels
| method_getTarget
| copy_constructor
| move_constructor
| copy_assignment
| move_assignment
| static_TARGET.

Record declaration := {
  decl_member : member;
  decl_access : access;
  decl_has_body : bool
}.

Definition BaseTexture_class : list declaration :=
  [ {| decl_member := ctor_from_bitmap; decl_access := Public; decl_has_body := true |};
    {| decl_member := ctor_from_pixels; decl_access := Public; decl_has_body := true |};
    {| decl_member := method_getTarget; decl_access := Public; decl_has_body := true |};
    {| decl_member := copy_constructor; decl_access := Private; decl_has_body := false |};
    {| decl_member := move_constructor; decl_access := Private; decl_has_body := false |};
    {| decl_member := copy_assignment; decl_access := Private; decl_has_body := false |};
    {| decl_member := move_assignment; decl_access := Private; decl_has_body := false |};
    {| decl_member := static_TARGET; decl_access := Private; decl_has_body := true |} ].

Definition member_eqb (a b : member) : bool :=
  match a, b with
  | ctor_from_bitmap, ctor_from_bitmap
  | ctor_from_pixels, ctor_from_pixels
  | method_getTarget, method_getTarget
  | copy_constructor, copy_constructor
  | move_constructor, move_constructor
  | copy_assignment, copy_assignment
  | move_assignment, move_assignment
  | static_TARGET, static_TARGET => true
  | _, _ => false
  end.

Definition declared (m : member) : option declaration :=
  List.find (fun d => member_eqb (decl_member d) m) BaseTexture_class.

(** The four ways of duplicating or transferring an object, and the special
    member each one resolves to. *)
Inductive transfer :=
| copy_construct
| move_construct
| copy_assign
| move_assign.

Definition special_member (t : transfer) : member :=
  match t with
  | copy_construct => copy_constructor
  | move_construct => move_constructor
  | copy_assign => copy_assignment
  | move_assign => move_assignment
  end.

Inductive verdict :=
| Accepted
| Rejected_inaccessible   (* the member is private at the point of use *)
| Rejected_undefined.     (* the member is declared and has no definition *)

(** What becomes of an attempt to duplicate or transfer a [BaseTexture].  A
    special member the class does not declare is supplied by the compiler and
    is public; a declared one is subject to access control, from outside the
    class, and needs a definition. *)
Definition attempt (inside_class : bool) (t : transfer) : verdict :=
  match declared (special_member t) with
  | None => Accepted
  | Some d =>
      match decl_access d, inside_class with
      | Private, false => Rejected_inaccessible
      | _, _ => if decl_has_body d then Accepted else Rejected_undefined
      end
  end.

(** ** Vocabulary of the properties *)

(** The world of the bitmap constructor once the base-class initialiser has
    run and [AndroidBitmap_getInfo] has been called, and the world once
    [AndroidBitmap_lockPixels] has been called as well. *)
Definition world_after_getInfo (bitmap : jobject) (w : World) : World :=
  record_call (call_AndroidBitmap_getInfo bitmap) (snd (new_GLTexture TARGET w)).

Definition world_after_lockPixels (bitmap : jobject) (w : World) : World :=
  record_call (call_AndroidBitmap_lockPixels bitmap) (world_after_getInfo bitmap w).


(** The two calls that touch the GL context from the constructor bodies. *)
Definition is_bind_or_upload (c : Call) : bool :=
  match c with
  | call_glBindTexture _ _ => true
  | call_glTexImage2D _ _ _ _ _ _ _ _ _ => true
  | _ => false
  end.

(** The message a concatenation of the literal and the code would give for
    the code [-1]. *)
Definition getInfo_message_with_code : string :=
  "AndroidBitmap_getInfo () failed! error = -1".

(** ** Concrete inputs *)

Definition empty_world : World :=
  {| textures := ∅; texture_binding_2d := 0; calls := [] |}.

Definition no_info : AndroidBitmapInfo :=
  {| info_width := 0; info_height := 0; info_stride := 0;
     info_format := 0; info_flags := 0 |}.

(** A VM that rejects the handle: [ANDROID_BITMAP_RESULT_BAD_PARAMETER]. *)
Definition env_bad_parameter : JNIEnv :=
  {| getInfo_answer := fun _ => (-1, no_info);
     lockPixels_answer := fun _ => (-1, NullPixels) |}.

(** A VM that describes the bitmap and then fails to lock its pixels:
    [ANDROID_BITMAP_RESULT_JNI_EXCEPTION]. *)
Definition env_lock_fails : JNIEnv :=
  {| getInfo_answer := fun _ =>
       (0, {| info_width := 2; info_height := 2; info_stride := 8;
              info_format := 1; info_flags := 0 |});
     lockPixels_answer := fun _ => (-2, NullPixels) |}.

(** Four opaque red pixels. *)
Definition red_2x2 : list Byte.byte :=
  [Byte.xff; Byte.x00; Byte.x00; Byte.xff;  Byte.xff; Byte.x00; Byte.x00; Byte.xff;
   Byte.xff; Byte.x00; Byte.x00; Byte.xff;  Byte.xff; Byte.x00; Byte.x00; Byte.xff].

(** A VM holding a 2x2 [RGBA_8888] bitmap. *)
Definition env_2x2 : JNIEnv :=
  {| getInfo_answer := fun _ =>
       (0, {| info_width := 2; info_height := 2; info_stride := 8;
              info_format := 1; info_flags := 0 |});
     lockPixels_answer := fun _ => (0, PixelsAt red_2x2) |}.

(** ** Vocabulary of the further properties *)

(** The image both constructors specify for their texture object: level 0,
    [GL_RGBA] as internal and source format, [GL_UNSIGNED_BYTE] channels, no
    border, and the first [width * height * 4] bytes behind [pixels]. *)
Definition uploaded_image (width height : GLsizei) (pixels : pixel_ptr) : TexImage :=
  {| img_level := 0; img_internalformat := GL_RGBA;
     img_width := width; img_height := height; img_border := 0;
     img_format := GL_RGBA; img_type := GL_UNSIGNED_BYTE;
     img_data := read_pixels pixels (width * height * 4) |}.

(** The image a texture object holds after such an upload: none when GL ES
    rejects the size. *)
Definition stored_image (width height : GLsizei) (pixels : pixel_ptr)
  : option TexImage :=
  if (width <? 0) || (height <? 0) then None
  else Some (uploaded_image width height pixels).

(** The calls issued between two worlds of one run. *)
Definition issued_since (w w' : World) : list Call :=
  drop (length (calls w)) (calls w').

Definition is_lockPixels (c : Call) : bool :=
  match c with call_AndroidBitmap_lockPixels _ => true | _ => false end.

Definition is_unlockPixels (c : Call) : bool :=
  match c with call_AndroidBitmap_unlockPixels _ => true | _ => false end.

Definition is_LOGE (c : Call) : bool :=
  match c with call_LOGE _ => true | _ => false end.

Definition count_calls (p : Call -> bool) (cs : list Call) : nat :=
  length (List.filter p cs).



(** A VM holding the same 2x2 pixels described as [RGB_565] with another
    stride and flags. *)
Definition env_2x2_other_format : JNIEnv :=
  {| getInfo_answer := fun _ =>
       (0, {| info_width := 2; info_height := 2; info_stride := 4;
              info_format := 4; info_flags := 1 |});
     lockPixels_answer := fun _ => (0, PixelsAt red_2x2) |}.

(** A VM reporting a width beyond the signed 32-bit range. *)
Definition env_wide : JNIEnv :=
  {| getInfo_answer := fun _ =>
       (0, {| info_width := 2 ^ 31; info_height := 1; info_stride := 0;
              info_format := 1; info_flags := 0 |});
     lockPixels_answer := fun _ => (0, NullPixels) |}.

(** * Properties *)

(** ** Auxiliary facts *)

Lemma fresh_name_nonzero (w : World) : fresh_name w <> 0.
Proof.
  unfold fresh_name. intros E.
  pose proof (is_fresh (({[ 0 ]} : gset Z) ∪ dom (textures w))) as F.
  rewrite E in F. set_solver.
Qed.

Lemma fresh_name_unused (w : World) : textures w !! fresh_name w = None.
Proof.
  unfold fresh_name.
  pose proof (is_fresh (({[ 0 ]} : gset Z) ∪ dom (textures w))) as F.
  apply not_elem_of_dom. set_solver.
Qed.

Lemma new_GLTexture_eq (tgt : GLenum) (w : World) :
  new_GLTexture tgt w =
  (Returned {| id := fresh_name w; target := tgt |},
   {| textures :=
        <[ fresh_name w := {| obj_target := tgt; obj_image := None |} ]> (textures w);
      texture_binding_2d := texture_binding_2d w;
      calls := calls w ++ [call_new_GLTexture tgt] |}).
Proof. reflexivity. Qed.

(** A negative offset leaves the literal: the string built from such a
    pointer is not determined. *)
Lemma std_string_of_negative (s : string) (n : Z) :
  n < 0 -> std_string_of (ptr_add (literal s) n) = Indeterminate.
Proof.
  intros Hn. unfold std_string_of, ptr_add, literal. cbn [lit_offset lit_chars].
  replace (0 <=? 0 + n) with false by (symmetry; apply Z.leb_gt; lia).
  reflexivity.
Qed.

(** Whatever the offset, the string built from the pointer is never longer
    than the literal: nothing is appended to it. *)
Lemma string_drop_length (n : nat) (s : string) :
  String.length (string_drop n s) = (String.length s - n)%nat.
Proof.
  revert s. induction n as [|n IH]; intros s.
  - cbn. lia.
  - destruct s as [|c s]; cbn; [reflexivity | apply IH].
Qed.

Lemma std_string_of_length (s t : string) (n : Z) :
  std_string_of (ptr_add (literal s) n) = Chars t ->
  (String.length t <= String.length s)%nat.
Proof.
  unfold std_string_of, ptr_add, literal. cbn [lit_offset lit_chars].
  destruct (_ && _); [| discriminate].
  intros [= <-]. rewrite string_drop_length. lia.
Qed.


Lemma bytes_per_pixel_RGBA8 : components GL_RGBA * component_size GL_UNSIGNED_BYTE = 4.
Proof. reflexivity. Qed.

(** ** The two constructors, run from an arbitrary world *)

Section Runs.
Variable env : JNIEnv.
Variable bitmap : jobject.
Variable w : World.

Lemma of_bitmap_getInfo_fails :
  fst (getInfo_answer env bitmap) < 0 ->
  let e := std_string_of
             (ptr_add (literal "AndroidBitmap_getInfo () failed! error = ")
                      (fst (getInfo_answer env bitmap))) in
  BaseTexture_of_bitmap env bitmap w =
  (Thrown e, record_call (call_LOGE e) (world_after_getInfo bitmap w)).
Proof.
  intros Hret e. subst e. unfold world_after_getInfo.
  unfold BaseTexture_of_bitmap, cpp_bind, AndroidBitmap_getInfo.
  rewrite new_GLTexture_eq.
  destruct (getInfo_answer env bitmap) as [ret info]. cbn [fst] in *.
  apply Z.ltb_lt in Hret. rewrite Hret. reflexivity.
Qed.

Lemma of_bitmap_lockPixels_fails :
  0 <= fst (getInfo_answer env bitmap) ->
  fst (lockPixels_answer env bitmap) < 0 ->
  let e := std_string_of
             (ptr_add (literal "AndroidBitmap_lockPixels () failed! error = ")
                      (fst (lockPixels_answer env bitmap))) in
  BaseTexture_of_bitmap env bitmap w =
  (Thrown e, record_call (call_LOGE e) (world_after_lockPixels bitmap w)).
Proof.
  intros Hinfo Hlock e. subst e.
  unfold world_after_lockPixels, world_after_getInfo.
  unfold BaseTexture_of_bitmap, cpp_bind, AndroidBitmap_getInfo,
    AndroidBitmap_lockPixels.
  rewrite new_GLTexture_eq.
  destruct (getInfo_answer env bitmap) as [ret info].
  destruct (lockPixels_answer env bitmap) as [ret' pixels]. cbn [fst] in *.
  apply Z.ltb_ge in Hinfo. apply Z.ltb_lt in Hlock.
  cbn beta iota. rewrite Hinfo. cbn beta iota. rewrite Hlock. reflexivity.
Qed.

Lemma of_bitmap_succeeds :
  0 <= fst (getInfo_answer env bitmap) ->
  0 <= fst (lockPixels_answer env bitmap) ->
  let info := snd (getInfo_answer env bitmap) in
  let pixels := snd (lockPixels_answer env bitmap) in
  let g := {| id := fresh_name w; target := TARGET |} in
  BaseTexture_of_bitmap env bitmap w =
  (Returned {| gl_texture_ := g |},
   snd (glTexImage2D GL_TEXTURE_2D 0 GL_RGBA
          (to_GLsizei (info_width info)) (to_GLsizei (info_height info)) 0
          GL_RGBA GL_UNSIGNED_BYTE pixels
          (snd (glBindTexture GL_TEXTURE_2D (id g)
                  (record_call (call_AndroidBitmap_unlockPixels bitmap) (world_after_lockPixels bitmap w)))))).
Proof.
  intros Hinfo Hlock info pixels g. subst info pixels g.
  unfold world_after_lockPixels, world_after_getInfo.
  unfold BaseTexture_of_bitmap, cpp_bind, AndroidBitmap_getInfo,
    AndroidBitmap_lockPixels, AndroidBitmap_unlockPixels.
  rewrite new_GLTexture_eq.
  destruct (getInfo_answer env bitmap) as [ret info].
  destruct (lockPixels_answer env bitmap) as [ret' pixels]. cbn [fst snd] in *.
  apply Z.ltb_ge in Hinfo. apply Z.ltb_ge in Hlock.
  cbn beta iota. rewrite Hinfo. cbn beta iota. rewrite Hlock. reflexivity.
Qed.

(** The three cases are exhaustive: a failed construction went through one
    of the two [throw]s. *)
Lemma of_bitmap_thrown (e : std_string) (w' : World) :
  BaseTexture_of_bitmap env bitmap w = (Thrown e, w') ->
  (fst (getInfo_answer env bitmap) < 0 /\ w' = record_call (call_LOGE e) (world_after_getInfo bitmap w)) \/
  (0 <= fst (getInfo_answer env bitmap) /\ fst (lockPixels_answer env bitmap) < 0 /\
   w' = record_call (call_LOGE e) (world_after_lockPixels bitmap w)).
Proof.
  intros Hrun.
  destruct (Z_lt_le_dec (fst (getInfo_answer env bitmap)) 0) as [Hi | Hi].
  - left. split; [exact Hi |].
    rewrite (of_bitmap_getInfo_fails Hi) in Hrun. congruence.
  - right. split; [exact Hi |].
    destruct (Z_lt_le_dec (fst (lockPixels_answer env bitmap)) 0) as [Hl | Hl].
    + split; [exact Hl |].
      rewrite (of_bitmap_lockPixels_fails Hi Hl) in Hrun. congruence.
    + rewrite (of_bitmap_succeeds Hi Hl) in Hrun. discriminate.
Qed.

Lemma of_pixels_eq (width height : Z) (pixels : pixel_ptr) :
  let g := {| id := fresh_name w; target := TARGET |} in
  BaseTexture_of_pixels width height pixels w =
  (Returned {| gl_texture_ := g |},
   snd (glTexImage2D GL_TEXTURE_2D 0 GL_RGBA width height 0
          GL_RGBA GL_UNSIGNED_BYTE pixels
          (snd (glBindTexture GL_TEXTURE_2D (id g)
                  (snd (new_GLTexture TARGET w)))))).
Proof. reflexivity. Qed.

End Runs.


Lemma size_rejected (iw ih : Z) :
  iw < 0 \/ ih < 0 -> (iw <? 0) || (ih <? 0) = true.
Proof.
  intros [H | H]; apply Z.ltb_lt in H; rewrite H; [reflexivity | apply orb_true_r].
Qed.


(** Whatever negative code the imaging API reports, the string the
    constructor throws is built from a pointer in front of the literal. *)
Lemma thrown_string_indeterminate (env : JNIEnv) (bitmap : jobject)
    (w w' : World) (e : std_string) :
  BaseTexture_of_bitmap env bitmap w = (Thrown e, w') -> e = Indeterminate.
Proof.
  intros Hrun.
  destruct (Z_lt_le_dec (fst (getInfo_answer env bitmap)) 0) as [Hi | Hi].
  - rewrite (of_bitmap_getInfo_fails env bitmap w Hi) in Hrun.
    rewrite (std_string_of_negative _ _ Hi) in Hrun. congruence.
  - destruct (Z_lt_le_dec (fst (lockPixels_answer env bitmap)) 0) as [Hl | Hl].
    + rewrite (of_bitmap_lockPixels_fails env bitmap w Hi Hl) in Hrun.
      rewrite (std_string_of_negative _ _ Hl) in Hrun. congruence.
    + rewrite (of_bitmap_succeeds env bitmap w Hi Hl) in Hrun. discriminate.
Qed.

(** With an offset inside the literal the same expression yields a suffix of
    the literal. *)
Example literal_plus_int_is_a_suffix :
  std_string_of (ptr_add (literal "error = ") 6) = Chars "= ".
Proof. reflexivity. Qed.

(** ** The claims *)

(** C1 (the code departs from the claim).  The claim: the error a failed
    bitmap construction propagates is a descriptive message with the
    platform's error code embedded.  For a bitmap whose metadata query
    reports [-1] the thrown string is indeterminate; it is not the message
    followed by the code. *)
Theorem getInfo_error_message_lacks_code :
  fst (BaseTexture_of_bitmap env_bad_parameter 1 empty_world) = Thrown Indeterminate /\
  fst (BaseTexture_of_bitmap env_bad_parameter 1 empty_world)
    <> Thrown (Chars getInfo_message_with_code).
Proof. split; [reflexivity | discriminate]. Qed.

(** C2.  For every bitmap handle whose metadata query returns a negative
    code, one of the failure codes the imaging API has, the bitmap
    constructor throws the error string built for [AndroidBitmap_getInfo] and
    returns no object. *)
Theorem getInfo_failure_throws (env : JNIEnv) (bitmap : jobject) (w : World) :
  documented_failure (fst (getInfo_answer env bitmap)) ->
  (exists w',
     BaseTexture_of_bitmap env bitmap w =
     (Thrown (std_string_of
                (ptr_add (literal "AndroidBitmap_getInfo () failed! error = ")
                         (fst (getInfo_answer env bitmap)))), w')) /\
  (forall t, fst (BaseTexture_of_bitmap env bitmap w) <> Returned t).
Proof.
  intros Hdoc.
  assert (Hret : fst (getInfo_answer env bitmap) < 0)
    by (unfold documented_failure, ANDROID_BITMAP_RESULT_BAD_PARAMETER,
          ANDROID_BITMAP_RESULT_JNI_EXCEPTION,
          ANDROID_BITMAP_RESULT_ALLOCATION_FAILED in Hdoc; lia).
  rewrite (of_bitmap_getInfo_fails env bitmap w Hret).
  split; [eexists; reflexivity | intros t; discriminate].
Qed.

Lemma getInfo_failure_throws_witness :
  documented_failure (fst (getInfo_answer env_bad_parameter 1)) /\
  ((exists w',
      BaseTexture_of_bitmap env_bad_parameter 1 empty_world =
      (Thrown (std_string_of
                 (ptr_add (literal "AndroidBitmap_getInfo () failed! error = ")
                          (fst (getInfo_answer env_bad_parameter 1)))), w')) /\
   (forall t, fst (BaseTexture_of_bitmap env_bad_parameter 1 empty_world) <> Returned t)).
Proof.
  assert (D : documented_failure (fst (getInfo_answer env_bad_parameter 1)))
    by (left; reflexivity).
  split; [exact D |].
  exact (getInfo_failure_throws env_bad_parameter 1 empty_world D).
Defined.

(** C3.  For every bitmap handle whose metadata query succeeds and whose
    pixel lock returns a negative code, one of the failure codes the imaging
    API has, the bitmap constructor throws the error string built for
    [AndroidBitmap_lockPixels] and returns no object. *)
Theorem lockPixels_failure_throws (env : JNIEnv) (bitmap : jobject) (w : World) :
  0 <= fst (getInfo_answer env bitmap) ->
  documented_failure (fst (lockPixels_answer env bitmap)) ->
  (exists w',
     BaseTexture_of_bitmap env bitmap w =
     (Thrown (std_string_of
                (ptr_add (literal "AndroidBitmap_lockPixels () failed! error = ")
                         (fst (lockPixels_answer env bitmap)))), w')) /\
  (forall t, fst (BaseTexture_of_bitmap env bitmap w) <> Returned t).
Proof.
  intros Hinfo Hdoc.
  assert (Hlock : fst (lockPixels_answer env bitmap) < 0)
    by (unfold documented_failure, ANDROID_BITMAP_RESULT_BAD_PARAMETER,
          ANDROID_BITMAP_RESULT_JNI_EXCEPTION,
          ANDROID_BITMAP_RESULT_ALLOCATION_FAILED in Hdoc; lia).
  rewrite (of_bitmap_lockPixels_fails env bitmap w Hinfo Hlock).
  split; [eexists; reflexivity | intros t; discriminate].
Qed.

Lemma lockPixels_failure_throws_witness :
  (0 <= fst (getInfo_answer env_lock_fails 1) /\
   documented_failure (fst (lockPixels_answer env_lock_fails 1))) /\
  ((exists w',
      BaseTexture_of_bitmap env_lock_fails 1 empty_world =
      (Thrown (std_string_of
                 (ptr_add (literal "AndroidBitmap_lockPixels () failed! error = ")
                          (fst (lockPixels_answer env_lock_fails 1)))), w')) /\
   (forall t, fst (BaseTexture_of_bitmap env_lock_fails 1 empty_world) <> Returned t)).
Proof.
  assert (A : 0 <= fst (getInfo_answer env_lock_fails 1)) by (cbn; lia).
  assert (D : documented_failure (fst (lockPixels_answer env_lock_fails 1)))
    by (right; left; reflexivity).
  split; [split; assumption |].
  exact (lockPixels_failure_throws env_lock_fails 1 empty_world A D).
Defined.






(** C6.  The raw-buffer constructor raises no error on any input: whatever
    the width, the height and the pixel pointer (null and too short buffers
    included), it returns an object, and the calls it issues are the
    allocation, one bind and one upload, with no check of any argument or of
    the GL error state among them. *)
Theorem raw_buffer_never_throws (width height : Z) (pixels : pixel_ptr)
    (w : World) :
  exists t w',
    BaseTexture_of_pixels width height pixels w = (Returned t, w') /\
    calls w' =
      calls w ++
      [ call_new_GLTexture GL_TEXTURE_2D;
        call_glBindTexture GL_TEXTURE_2D (id (gl_texture_ t));
        call_glTexImage2D GL_TEXTURE_2D 0 GL_RGBA width height 0
          GL_RGBA GL_UNSIGNED_BYTE pixels ].
Proof.
  rewrite of_pixels_eq. eexists _, _. split; [reflexivity |].
  cbn. rewrite <- !app_assoc. reflexivity.
Qed.

(** C7.  [getTarget] is pure: on every object and in every world it returns
    the constant [GL_TEXTURE_2D], throws nothing and leaves the world as it
    was. *)
Theorem getTarget_pure (t : BaseTexture) (w : World) :
  getTarget t w = (Returned GL_TEXTURE_2D, w).
Proof. reflexivity. Qed.

(** C8.  The class offers no copy and no move: each of the copy constructor,
    move constructor, copy assignment and move assignment is declared by the
    class, privately and without a body, so that an attempt to duplicate or
    transfer an object is rejected, from outside the class as inaccessible
    and from inside it for want of a definition. *)
Theorem copy_and_move_rejected (t : transfer) :
  (exists d,
     declared (special_member t) = Some d /\
     decl_access d = Private /\ decl_has_body d = false) /\
  attempt false t = Rejected_inaccessible /\
  attempt true t = Rejected_undefined.
Proof.
  destruct t; (split; [eexists; repeat split | split]; reflexivity).
Qed.

(** C9.  On every failure path of the bitmap constructor no bind call and no
    upload call is among the calls issued before the error is thrown, and the
    texture bound to the 2D target is the one that was bound before the
    construction. *)
Theorem failed_construction_keeps_binding (env : JNIEnv) (bitmap : jobject)
    (w w' : World) (e : std_string) :
  BaseTexture_of_bitmap env bitmap w = (Thrown e, w') ->
  texture_binding_2d w' = texture_binding_2d w /\
  exists issued,
    calls w' = calls w ++ issued /\
    Forall (fun c => is_bind_or_upload c = false) issued.
Proof.
  intros Hrun.
  destruct (of_bitmap_thrown env bitmap w e w' Hrun) as [[_ ->] | (_ & _ & ->)].
  - split; [reflexivity |].
    exists [call_new_GLTexture TARGET; call_AndroidBitmap_getInfo bitmap; call_LOGE e].
    split.
    + cbn. rewrite <- !app_assoc. reflexivity.
    + repeat constructor.
  - split; [reflexivity |].
    exists [call_new_GLTexture TARGET; call_AndroidBitmap_getInfo bitmap;
            call_AndroidBitmap_lockPixels bitmap; call_LOGE e].
    split.
    + cbn. rewrite <- !app_assoc. reflexivity.
    + repeat constructor.
Qed.

Lemma failed_construction_keeps_binding_witness :
  texture_binding_2d (snd (BaseTexture_of_bitmap env_lock_fails 1 empty_world)) =
    texture_binding_2d empty_world /\
  exists issued,
    calls (snd (BaseTexture_of_bitmap env_lock_fails 1 empty_world)) =
      calls empty_world ++ issued /\
    Forall (fun c => is_bind_or_upload c = false) issued.
Proof.
  apply (failed_construction_keeps_binding env_lock_fails 1 empty_world
           (snd (BaseTexture_of_bitmap env_lock_fails 1 empty_world)) Indeterminate).
  reflexivity.
Defined.

(** C10.  In both constructors the base-class initialiser allocates a texture
    object for the 2D target before anything else is called, the bitmap's
    metadata query included.  On the failure paths of the bitmap constructor
    the texture object therefore exists, under a name that was unused before,
    in the world the error is thrown in: nothing was released, the
    previously existing texture objects are all still there. *)
Theorem allocation_precedes_validation (env : JNIEnv) (bitmap : jobject)
    (w w' : World) (e : std_string) :
  BaseTexture_of_bitmap env bitmap w = (Thrown e, w') ->
  (fresh_name w <> 0 /\ textures w !! fresh_name w = None) /\
  (exists rest,
     calls w' =
       calls w ++
       call_new_GLTexture GL_TEXTURE_2D :: call_AndroidBitmap_getInfo bitmap :: rest) /\
  textures w' !! fresh_name w =
    Some {| obj_target := GL_TEXTURE_2D; obj_image := None |} /\
  textures w ⊆ textures w' /\
  (forall env0 bitmap0 w0, exists rest,
     calls (snd (BaseTexture_of_bitmap env0 bitmap0 w0)) =
       calls w0 ++ call_new_GLTexture GL_TEXTURE_2D :: rest) /\
  (forall width height pixels w0, exists rest,
     calls (snd (BaseTexture_of_pixels width height pixels w0)) =
       calls w0 ++ call_new_GLTexture GL_TEXTURE_2D :: rest).
Proof.
  intros Hrun.
  split; [split; [apply fresh_name_nonzero | apply fresh_name_unused] |].
  assert (Hw' : (exists rest,
                   calls w' = calls w ++ call_new_GLTexture GL_TEXTURE_2D ::
                              call_AndroidBitmap_getInfo bitmap :: rest) /\
                textures w' =
                  <[ fresh_name w := {| obj_target := GL_TEXTURE_2D; obj_image := None |} ]>
                    (textures w)).
  { destruct (of_bitmap_thrown env bitmap w e w' Hrun) as [[_ ->] | (_ & _ & ->)].
    - split; [| reflexivity]. eexists. cbn. rewrite <- !app_assoc. reflexivity.
    - split; [| reflexivity]. eexists. cbn. rewrite <- !app_assoc. reflexivity. }
  destruct Hw' as [Hcalls Htex].
  split; [exact Hcalls |]. rewrite Htex.
  split; [apply lookup_insert_eq |].
  split; [apply insert_subseteq, fresh_name_unused |].
  split.
  - intros env0 bitmap0 w0.
    destruct (Z_lt_le_dec (fst (getInfo_answer env0 bitmap0)) 0) as [Hi | Hi].
    + rewrite (of_bitmap_getInfo_fails env0 bitmap0 w0 Hi).
      eexists. cbn. rewrite <- !app_assoc. reflexivity.
    + destruct (Z_lt_le_dec (fst (lockPixels_answer env0 bitmap0)) 0) as [Hl | Hl].
      * rewrite (of_bitmap_lockPixels_fails env0 bitmap0 w0 Hi Hl).
        eexists. cbn. rewrite <- !app_assoc. reflexivity.
      * rewrite (of_bitmap_succeeds env0 bitmap0 w0 Hi Hl).
        eexists. cbn. rewrite <- !app_assoc. reflexivity.
  - intros width height pixels w0. rewrite of_pixels_eq.
    eexists. cbn. rewrite <- !app_assoc. reflexivity.
Qed.

Lemma allocation_precedes_validation_witness :
  (fresh_name empty_world <> 0 /\ textures empty_world !! fresh_name empty_world = None) /\
  (exists rest,
     calls (snd (BaseTexture_of_bitmap env_bad_parameter 1 empty_world)) =
       calls empty_world ++
       call_new_GLTexture GL_TEXTURE_2D :: call_AndroidBitmap_getInfo 1 :: rest) /\
  textures (snd (BaseTexture_of_bitmap env_bad_parameter 1 empty_world))
    !! fresh_name empty_world =
    Some {| obj_target := GL_TEXTURE_2D; obj_image := None |} /\
  textures empty_world ⊆ textures (snd (BaseTexture_of_bitmap env_bad_parameter 1 empty_world)) /\
  (forall env0 bitmap0 w0, exists rest,
     calls (snd (BaseTexture_of_bitmap env0 bitmap0 w0)) =
       calls w0 ++ call_new_GLTexture GL_TEXTURE_2D :: rest) /\
  (forall width height pixels w0, exists rest,
     calls (snd (BaseTexture_of_pixels width height pixels w0)) =
       calls w0 ++ call_new_GLTexture GL_TEXTURE_2D :: rest).
Proof.
  apply (allocation_precedes_validation env_bad_parameter 1 empty_world
           (snd (BaseTexture_of_bitmap env_bad_parameter 1 empty_world)) Indeterminate).
  reflexivity.
Defined.

(** ** Further properties of the constructors *)

Lemma issued_since_app (w w' : World) (cs : list Call) :
  calls w' = calls w ++ cs -> issued_since w w' = cs.
Proof. intros E. unfold issued_since. rewrite E. apply drop_app_length. Qed.

(** The world the raw-buffer constructor ends in, spelled out. *)
Lemma of_pixels_world (width height : Z) (pixels : pixel_ptr) (w : World) :
  snd (BaseTexture_of_pixels width height pixels w) =
  {| textures :=
       <[ fresh_name w := {| obj_target := GL_TEXTURE_2D;
                             obj_image := stored_image width height pixels |} ]>
         (textures w);
     texture_binding_2d := fresh_name w;
     calls := calls w ++
              [ call_new_GLTexture GL_TEXTURE_2D;
                call_glBindTexture GL_TEXTURE_2D (fresh_name w);
                call_glTexImage2D GL_TEXTURE_2D 0 GL_RGBA width height 0
                  GL_RGBA GL_UNSIGNED_BYTE pixels ] |}.
Proof.
  rewrite of_pixels_eq, new_GLTexture_eq.
  unfold glTexImage2D, glBindTexture, stored_image.
  cbn [snd fst textures texture_binding_2d calls id].
  rewrite !decide_True by reflexivity.
  rewrite <- !app_assoc.
  destruct ((width <? 0) || (height <? 0)); [reflexivity |].
  rewrite alter_insert_eq. reflexivity.
Qed.


(** The world a successful bitmap construction ends in. *)
Lemma of_bitmap_world (env : JNIEnv) (bitmap : jobject) (w : World) :
  0 <= fst (getInfo_answer env bitmap) ->
  0 <= fst (lockPixels_answer env bitmap) ->
  let W := to_GLsizei (info_width (snd (getInfo_answer env bitmap))) in
  let H := to_GLsizei (info_height (snd (getInfo_answer env bitmap))) in
  let pixels := snd (lockPixels_answer env bitmap) in
  BaseTexture_of_bitmap env bitmap w =
  (Returned {| gl_texture_ := {| id := fresh_name w; target := GL_TEXTURE_2D |} |},
   {| textures :=
        <[ fresh_name w := {| obj_target := GL_TEXTURE_2D;
                              obj_image := stored_image W H pixels |} ]>
          (textures w);
      texture_binding_2d := fresh_name w;
      calls := calls w ++
               [ call_new_GLTexture GL_TEXTURE_2D;
                 call_AndroidBitmap_getInfo bitmap;
                 call_AndroidBitmap_lockPixels bitmap;
                 call_AndroidBitmap_unlockPixels bitmap;
                 call_glBindTexture GL_TEXTURE_2D (fresh_name w);
                 call_glTexImage2D GL_TEXTURE_2D 0 GL_RGBA W H 0
                   GL_RGBA GL_UNSIGNED_BYTE pixels ] |}).
Proof.
  intros Hinfo Hlock W H pixels.
  rewrite (of_bitmap_succeeds env bitmap w Hinfo Hlock).
  unfold world_after_lockPixels, world_after_getInfo.
  rewrite new_GLTexture_eq.
  unfold glTexImage2D, glBindTexture, record_call, stored_image.
  cbn [snd fst textures texture_binding_2d calls id].
  rewrite !decide_True by reflexivity.
  rewrite <- !app_assoc. fold W H pixels.
  destruct ((W <? 0) || (H <? 0)); [reflexivity |].
  rewrite alter_insert_eq. reflexivity.
Qed.



(** X2.  On a bitmap both of whose API calls succeed, the bitmap constructor
    returns the same object and leaves the same texture objects and the same
    2D binding as the raw-buffer constructor run on the bitmap's width and
    height (converted to [GLsizei]) and on the pointer the lock returned. *)
Theorem of_bitmap_agrees_with_of_pixels (env : JNIEnv) (bitmap : jobject)
    (w : World) :
  0 <= fst (getInfo_answer env bitmap) ->
  0 <= fst (lockPixels_answer env bitmap) ->
  let info := snd (getInfo_answer env bitmap) in
  let raw := BaseTexture_of_pixels (to_GLsizei (info_width info))
               (to_GLsizei (info_height info))
               (snd (lockPixels_answer env bitmap)) w in
  let bmp := BaseTexture_of_bitmap env bitmap w in
  fst bmp = fst raw /\
  textures (snd bmp) = textures (snd raw) /\
  texture_binding_2d (snd bmp) = texture_binding_2d (snd raw).
Proof.
  intros Hinfo Hlock info raw bmp. subst info raw bmp.
  rewrite (of_bitmap_world env bitmap w Hinfo Hlock), of_pixels_world.
  rewrite of_pixels_eq. cbn [fst snd textures texture_binding_2d].
  repeat split; reflexivity.
Qed.

Lemma of_bitmap_agrees_with_of_pixels_witness :
  (0 <= fst (getInfo_answer env_2x2 1) /\ 0 <= fst (lockPixels_answer env_2x2 1)) /\
  fst (BaseTexture_of_bitmap env_2x2 1 empty_world) =
    fst (BaseTexture_of_pixels 2 2 (PixelsAt red_2x2) empty_world) /\
  textures (snd (BaseTexture_of_bitmap env_2x2 1 empty_world)) =
    textures (snd (BaseTexture_of_pixels 2 2 (PixelsAt red_2x2) empty_world)) /\
  texture_binding_2d (snd (BaseTexture_of_bitmap env_2x2 1 empty_world)) =
    texture_binding_2d (snd (BaseTexture_of_pixels 2 2 (PixelsAt red_2x2) empty_world)).
Proof.
  assert (A : 0 <= fst (getInfo_answer env_2x2 1)) by (cbn; lia).
  assert (B : 0 <= fst (lockPixels_answer env_2x2 1)) by (cbn; lia).
  split; [split; assumption |].
  exact (of_bitmap_agrees_with_of_pixels env_2x2 1 empty_world A B).
Defined.

(** X3.  The bitmap constructor keeps lock and unlock balanced on every
    path: it calls [AndroidBitmap_lockPixels] once exactly when the metadata
    query succeeded, and [AndroidBitmap_unlockPixels] once exactly when the
    lock succeeded too.  After a failed query nothing is locked; after a
    failed lock nothing is unlocked. *)
Theorem lock_unlock_balanced (env : JNIEnv) (bitmap : jobject) (w : World) :
  let cs := issued_since w (snd (BaseTexture_of_bitmap env bitmap w)) in
  count_calls is_lockPixels cs =
    (if 0 <=? fst (getInfo_answer env bitmap) then 1%nat else 0%nat) /\
  count_calls is_unlockPixels cs =
    (if (0 <=? fst (getInfo_answer env bitmap)) &&
        (0 <=? fst (lockPixels_answer env bitmap)) then 1%nat else 0%nat).
Proof.
  intros cs. subst cs.
  destruct (Z.leb_spec 0 (fst (getInfo_answer env bitmap))) as [Hi | Hi].
  - destruct (Z.leb_spec 0 (fst (lockPixels_answer env bitmap))) as [Hl | Hl].
    + rewrite (of_bitmap_world env bitmap w Hi Hl). cbn [snd].
      erewrite issued_since_app by reflexivity. split; reflexivity.
    + rewrite (of_bitmap_lockPixels_fails env bitmap w Hi Hl). cbn [snd].
      erewrite issued_since_app.
      2:{ unfold world_after_lockPixels, world_after_getInfo.
          rewrite new_GLTexture_eq. cbn. rewrite <- !app_assoc. reflexivity. }
      split; reflexivity.
  - rewrite (of_bitmap_getInfo_fails env bitmap w Hi). cbn [snd].
    erewrite issued_since_app.
    2:{ unfold world_after_getInfo.
        rewrite new_GLTexture_eq. cbn. rewrite <- !app_assoc. reflexivity. }
    split; reflexivity.
Qed.

(** X4.  Every error the bitmap constructor throws has been logged first:
    the last call before the throw is [LOGE] with the very string that is
    thrown, and it is the only [LOGE] of the run.  A construction that
    returns logs nothing. *)
Theorem thrown_error_was_logged (env : JNIEnv) (bitmap : jobject) (w : World) :
  let cs := issued_since w (snd (BaseTexture_of_bitmap env bitmap w)) in
  match fst (BaseTexture_of_bitmap env bitmap w) with
  | Thrown e =>
      exists before, cs = before ++ [call_LOGE e] /\ count_calls is_LOGE before = 0%nat
  | Returned _ => count_calls is_LOGE cs = 0%nat
  end.
Proof.
  intros cs. subst cs.
  destruct (Z_lt_le_dec (fst (getInfo_answer env bitmap)) 0) as [Hi | Hi].
  - rewrite (of_bitmap_getInfo_fails env bitmap w Hi). cbn [fst snd].
    exists [call_new_GLTexture GL_TEXTURE_2D; call_AndroidBitmap_getInfo bitmap].
    split; [| reflexivity].
    apply issued_since_app. unfold world_after_getInfo.
    rewrite new_GLTexture_eq. cbn. rewrite <- !app_assoc. reflexivity.
  - destruct (Z_lt_le_dec (fst (lockPixels_answer env bitmap)) 0) as [Hl | Hl].
    + rewrite (of_bitmap_lockPixels_fails env bitmap w Hi Hl). cbn [fst snd].
      exists [call_new_GLTexture GL_TEXTURE_2D; call_AndroidBitmap_getInfo bitmap;
              call_AndroidBitmap_lockPixels bitmap].
      split; [| reflexivity].
      apply issued_since_app. unfold world_after_lockPixels, world_after_getInfo.
      rewrite new_GLTexture_eq. cbn. rewrite <- !app_assoc. reflexivity.
    + rewrite (of_bitmap_world env bitmap w Hi Hl). cbn [fst snd].
      erewrite issued_since_app by reflexivity. reflexivity.
Qed.

(** X5.  Whichever call of the imaging API fails and whatever negative code
    it reports, the string the bitmap constructor throws is built from a
    pointer in front of the literal: it is no string the code determines, and
    so never the message, with or without the code. *)
Theorem thrown_string_never_determined (env : JNIEnv) (bitmap : jobject)
    (w w' : World) (e : std_string) :
  BaseTexture_of_bitmap env bitmap w = (Thrown e, w') ->
  forall s : string, e <> Chars s.
Proof.
  intros Hrun s. rewrite (thrown_string_indeterminate env bitmap w w' e Hrun).
  discriminate.
Qed.

Lemma thrown_string_never_determined_witness :
  BaseTexture_of_bitmap env_lock_fails 1 empty_world =
    (Thrown Indeterminate, snd (BaseTexture_of_bitmap env_lock_fails 1 empty_world)) /\
  (forall s : string, Indeterminate <> Chars s).
Proof.
  assert (R : BaseTexture_of_bitmap env_lock_fails 1 empty_world =
              (Thrown Indeterminate,
               snd (BaseTexture_of_bitmap env_lock_fails 1 empty_world)))
    by reflexivity.
  split; [exact R |].
  exact (thrown_string_never_determined env_lock_fails 1 empty_world _ _ R).
Defined.

(** X6.  The bitmap constructor never looks at the pixel format, the stride
    or the flags of the bitmap: two VMs that answer with the same return
    codes, the same width and height and the same pixel pointer lead to the
    same outcome, the same GL context and the same calls, whatever format
    they report.  The upload is [GL_RGBA] with [GL_UNSIGNED_BYTE] in all
    cases. *)
Theorem format_never_inspected (env1 env2 : JNIEnv) (bitmap : jobject) (w : World) :
  fst (getInfo_answer env1 bitmap) = fst (getInfo_answer env2 bitmap) ->
  info_width (snd (getInfo_answer env1 bitmap)) =
    info_width (snd (getInfo_answer env2 bitmap)) ->
  info_height (snd (getInfo_answer env1 bitmap)) =
    info_height (snd (getInfo_answer env2 bitmap)) ->
  lockPixels_answer env1 bitmap = lockPixels_answer env2 bitmap ->
  BaseTexture_of_bitmap env1 bitmap w = BaseTexture_of_bitmap env2 bitmap w.
Proof.
  intros Hret Hw Hh Hlock.
  unfold BaseTexture_of_bitmap, cpp_bind, AndroidBitmap_getInfo,
    AndroidBitmap_lockPixels.
  rewrite new_GLTexture_eq, Hlock.
  destruct (getInfo_answer env1 bitmap) as [r1 i1].
  destruct (getInfo_answer env2 bitmap) as [r2 i2].
  cbn [fst snd] in Hret, Hw, Hh. subst r2.
  cbn beta iota. destruct (r1 <? 0); [reflexivity |].
  destruct (lockPixels_answer env2 bitmap) as [r p].
  cbn beta iota. destruct (r <? 0); [reflexivity |].
  rewrite Hw, Hh. reflexivity.
Qed.

Lemma format_never_inspected_witness :
  info_format (snd (getInfo_answer env_2x2 1)) <>
    info_format (snd (getInfo_answer env_2x2_other_format 1)) /\
  BaseTexture_of_bitmap env_2x2 1 empty_world =
    BaseTexture_of_bitmap env_2x2_other_format 1 empty_world.
Proof.
  split; [cbn; lia |].
  apply (format_never_inspected env_2x2 env_2x2_other_format 1 empty_world);
    reflexivity.
Defined.



(** X8.  The bitmap's [uint32_t] width reaches [glTexImage2D] as a
    [GLsizei]: a width from 2^31 up to 2^32 - 1 is uploaded as that width
    minus 2^32, a negative number, and the constructor returns all the
    same. *)
Theorem wide_bitmap_width_wraps (env : JNIEnv) (bitmap : jobject) (w : World) :
  0 <= fst (getInfo_answer env bitmap) ->
  0 <= fst (lockPixels_answer env bitmap) ->
  2 ^ 31 <= info_width (snd (getInfo_answer env bitmap)) < 2 ^ 32 ->
  let W := info_width (snd (getInfo_answer env bitmap)) in
  let H := to_GLsizei (info_height (snd (getInfo_answer env bitmap))) in
  exists t w' before,
    BaseTexture_of_bitmap env bitmap w = (Returned t, w') /\
    W - 2 ^ 32 < 0 /\
    calls w' =
      before ++ [call_glTexImage2D GL_TEXTURE_2D 0 GL_RGBA (W - 2 ^ 32) H 0
                   GL_RGBA GL_UNSIGNED_BYTE (snd (lockPixels_answer env bitmap))].
Proof.
  intros Hinfo Hlock HW W H.
  assert (E : to_GLsizei W = W - 2 ^ 32).
  { unfold to_GLsizei.
    replace (W + 2 ^ 31) with (W - 2 ^ 31 + 1 * 2 ^ 32) by lia.
    rewrite Z.mod_add by lia. rewrite Z.mod_small; subst W; lia. }
  rewrite (of_bitmap_world env bitmap w Hinfo Hlock). fold W H. rewrite E.
  eexists _, _,
    (calls w ++ [call_new_GLTexture GL_TEXTURE_2D; call_AndroidBitmap_getInfo bitmap;
                 call_AndroidBitmap_lockPixels bitmap;
                 call_AndroidBitmap_unlockPixels bitmap;
                 call_glBindTexture GL_TEXTURE_2D (fresh_name w)]).
  split; [reflexivity |]. split; [subst W; lia |].
  cbn [calls]. rewrite <- app_assoc. reflexivity.
Qed.

Lemma wide_bitmap_width_wraps_witness :
  (0 <= fst (getInfo_answer env_wide 1) /\
   0 <= fst (lockPixels_answer env_wide 1) /\
   2 ^ 31 <= info_width (snd (getInfo_answer env_wide 1)) < 2 ^ 32) /\
  exists t w' before,
    BaseTexture_of_bitmap env_wide 1 empty_world = (Returned t, w') /\
    2 ^ 31 - 2 ^ 32 < 0 /\
    calls w' =
      before ++ [call_glTexImage2D GL_TEXTURE_2D 0 GL_RGBA (2 ^ 31 - 2 ^ 32) 1 0
                   GL_RGBA GL_UNSIGNED_BYTE NullPixels].
Proof.
  assert (A : 0 <= fst (getInfo_answer env_wide 1)) by (cbn; lia).
  assert (B : 0 <= fst (lockPixels_answer env_wide 1)) by (cbn; lia).
  assert (C : 2 ^ 31 <= info_width (snd (getInfo_answer env_wide 1)) < 2 ^ 32)
    by (cbn; lia).
  split; [repeat split; first [exact A | exact B | apply C] |].
  exact (wide_bitmap_width_wraps env_wide 1 empty_world A B C).
Defined.






